(** * opticif: structural validation of node and matrix CSV files

    A shallow embedding of [opticif/validators.py] and of the slice of the
    Python runtime it runs on ([str.strip], [csv.DictReader], the
    [utf-8-sig] codec), followed by the properties of the two validators
    [validate_node_csv_structure] and [validate_matrix_csv_structure]. *)

From Stdlib Require Import NArith DecimalString.
From Stdlib.Strings Require Import Byte.
From stdpp Require Import gmap list strings.

Local Open Scope N_scope.
Local Open Scope nat_scope.

(** ** Python strings *)

(** A Python [str] is a sequence of Unicode code points. *)
Abbreviation str := (list N).

(** A 7-bit literal of the source, as a [str]. *)
Definition lit (s : string) : str :=
  Ascii.N_of_ascii <$> String.list_ascii_of_string s.

(** [str(n)] for a non-negative integer, as f-strings render it. *)
Definition str_of_nat (n : nat) : str :=
  lit (NilZero.string_of_uint (Nat.to_uint n)).

(** The characters [str.strip()] removes: those for which [str.isspace]
    holds (CPython's [_PyUnicode_IsWhitespace]). *)
Definition isspace (c : N) : bool :=
  ((0x09 <=? c) && (c <=? 0x0D) || (0x1C <=? c) && (c <=? 0x20)
   || (c =? 0x85) || (c =? 0xA0) || (c =? 0x1680)
   || (0x2000 <=? c) && (c <=? 0x200A)
   || (c =? 0x2028) || (c =? 0x2029) || (c =? 0x202F)
   || (c =? 0x205F) || (c =? 0x3000))%N.

Fixpoint lstrip (s : str) : str :=
  match s with
  | c :: s' => if isspace c then lstrip s' else s
  | [] => []
  end.

Definition rstrip (s : str) : str := reverse (lstrip (reverse s)).

(** [s.strip()] *)
Definition strip (s : str) : str := rstrip (lstrip s).

(** ** Exceptions and results *)

Inductive exn : Type :=
  | CSVStructureError (message : str)   (* class CSVStructureError(Exception) *)
  | TypeError
  | AttributeError
  | KeyError
  | UnicodeDecodeError                  (* raised by the codec while reading *)
  | csv_Error.                          (* raised by the csv reader *)

(** A call either returns a value or raises.  A function declared
    [-> None] returns [tt]. *)
Inductive result (A : Type) : Type :=
  | Return (a : A)
  | Raise (e : exn).
Arguments Return {A} a.
Arguments Raise {A} e.

#[global] Instance result_ret : MRet result := λ A a, Return a.
#[global] Instance result_bind : MBind result := λ A B k r,
  match r with
  | Return a => k a
  | Raise e => Raise e
  end.

(** ** Iterators *)

(** What the successive [next()] calls on an iterator give: an item, the
    end of the iteration ([StopIteration]), or an exception. *)
Inductive iter (A : Type) : Type :=
  | Stop
  | Throw (e : exn)
  | Yield (a : A) (rest : iter A).
Arguments Stop {A}.
Arguments Throw {A} e.
Arguments Yield {A} a rest.

(** The iterator over a finished sequence of items. *)
Fixpoint iter_of_list {A} (l : list A) : iter A :=
  match l with
  | [] => Stop
  | a :: l' => Yield a (iter_of_list l')
  end.

(** The items [l], then whatever [rest] gives. *)
Fixpoint iter_app {A} (l : list A) (rest : iter A) : iter A :=
  match l with
  | [] => rest
  | a :: l' => Yield a (iter_app l' rest)
  end.

(** [list(it)] *)
Fixpoint list_of_iter {A} (it : iter A) : result (list A) :=
  match it with
  | Stop => Return []
  | Throw e => Raise e
  | Yield a rest => l ← list_of_iter rest; Return (a :: l)
  end.

(** ** csv.DictReader (Lib/csv.py) *)

(** The values a row dictionary holds: a cell, [None] (the default
    [restval] of a short row), or the list of surplus cells stored under
    the default [restkey], which is the key [None]. *)
Inductive value : Type :=
  | VStr (s : str)
  | VNone
  | VList (l : list str).

Abbreviation dict := (gmap (option str) value).

(** [dict(pairs)]: a later pair overrides an earlier one with its key. *)
Definition dict_of_pairs (pairs : list (option str * value)) : dict :=
  foldl (λ d kv, <[kv.1 := kv.2]> d) ∅ pairs.

(** The dictionary [DictReader.__next__] builds from a non-blank row. *)
Definition DictReader_row (fieldnames row : list str) : dict :=
  let d := dict_of_pairs (zip (Some <$> fieldnames) (VStr <$> row)) in
  let lf := length fieldnames in
  let lr := length row in
  if lf <? lr then <[None := VList (drop lf row)]> d
  else if lr <? lf then
    foldl (λ d key, <[Some key := VNone]> d) d (drop lr fieldnames)
  else d.

(** The [fieldnames] property on a fresh [DictReader]: the first row of
    the underlying reader, or [None] when there is none, together with
    what is left of the underlying reader. *)
Definition DictReader_fieldnames (reader : iter (list str))
  : result (option (list str) * iter (list str)) :=
  match reader with
  | Stop => Return (None, Stop)
  | Throw e => Raise e
  | Yield row rest => Return (Some row, rest)
  end.

(** Iterating a [DictReader] whose field names have been read (so that
    the [line_num == 0] branch of [__next__], which reads them, does
    nothing): blank rows of the underlying reader are skipped
    ([while row == []]), the others are turned into dictionaries. *)
Fixpoint DictReader_iter (fieldnames : list str) (reader : iter (list str))
  : iter dict :=
  match reader with
  | Stop => Stop
  | Throw e => Throw e
  | Yield row rest =>
      if bool_decide (row = []) then DictReader_iter fieldnames rest
      else Yield (DictReader_row fieldnames row) (DictReader_iter fieldnames rest)
  end.

(** [d[key]] *)
Definition getitem (d : dict) (key : option str) : result value :=
  match d !! key with
  | Some v => Return v
  | None => Raise KeyError
  end.

(** [v.strip()]: only a [str] has the method. *)
Definition strip_method (v : value) : result str :=
  match v with
  | VStr s => Return (strip s)
  | VNone | VList _ => Raise AttributeError
  end.

(** ** The utf-8-sig codec (Lib/encodings/utf_8_sig.py) *)

#[global] Instance byte_eq_dec : EqDecision byte := Byte.byte_eq_dec.

Definition BOM_UTF8 : list byte := [xef; xbb; xbf].

(** The bytes that the incremental [utf-8-sig] decoder hands to
    [codecs.utf_8_decode] over a whole file: a leading BOM is dropped;
    a file shorter than three bytes that is the beginning of a BOM is
    held back in the decoder's buffer and never decoded. *)
Definition utf_8_sig_payload (input : list byte) : list byte :=
  if length input <? 3 then
    if bool_decide (input `prefix_of` BOM_UTF8) then [] else input
  else if bool_decide (take 3 input = BOM_UTF8) then drop 3 input
  else input.

(** ** The validators (opticif/validators.py) *)

Definition missing_name_message (csv_path : str) : str :=
  csv_path ++ lit " should have a header with a 'name' column.".

Definition empty_name_message (csv_path : str) : str :=
  lit "'" ++ csv_path ++ lit "' contains an empty value in the 'name' column.".

Definition duplicate_name_message (csv_path : str) : str :=
  lit "'" ++ csv_path ++ lit "' contains duplicate names in the 'name' column.".

Definition not_square_message (matrix_path : str) : str :=
  lit "The matrix in '" ++ matrix_path
  ++ lit "' is not square. Each row should have the same number of elements as "
  ++ lit "the number of rows.".

(** [row] and [column] are the numbers printed, [i+1] and [j+1]. *)
Definition not_binary_message (matrix_path element : str) (row column : nat) : str :=
  lit "The matrix in '" ++ matrix_path ++ lit "' is not binary. Found '"
  ++ element ++ lit "' at row " ++ str_of_nat row
  ++ lit ", column " ++ str_of_nat column ++ lit ".".

(** The loop [for row in reader] of [validate_node_csv_structure], with
    the set [names] of the names seen so far. *)
Fixpoint check_names (csv_path : str) (names : gset str) (reader : iter dict)
  : result unit :=
  match reader with
  | Stop => Return tt
  | Throw e => Raise e
  | Yield row rest =>
      match getitem row (Some (lit "name")) ≫= strip_method with
      | Raise e => Raise e
      | Return name =>
          if bool_decide (name = []) then
            Raise (CSVStructureError (empty_name_message csv_path))
          else if bool_decide (name ∈ names) then
            Raise (CSVStructureError (duplicate_name_message csv_path))
          else check_names csv_path ({[name]} ∪ names) rest
      end
  end.

(** The loop [for j, element in enumerate(row)] on row [i], from column [j]. *)
Fixpoint check_elements (matrix_path : str) (i j : nat) (row : list str)
  : result unit :=
  match row with
  | [] => Return tt
  | element :: row' =>
      if bool_decide (element ∉ [lit "0"; lit "1"]) then
        Raise (CSVStructureError
                 (not_binary_message matrix_path element (i + 1) (j + 1)))
      else check_elements matrix_path i (S j) row'
  end.

(** The loop [for i, row in enumerate(matrix)], from row [i]. *)
Fixpoint check_rows (matrix_path : str) (row_count i : nat)
    (matrix : list (list str)) : result unit :=
  match matrix with
  | [] => Return tt
  | row :: matrix' =>
      if bool_decide (length row ≠ row_count) then
        Raise (CSVStructureError (not_square_message matrix_path))
      else
        match check_elements matrix_path i 0 row with
        | Raise e => Raise e
        | Return _ => check_rows matrix_path row_count (S i) matrix'
        end
  end.

(** The runtime below the validators.  A file is given by its bytes;
    [TextIO] is an open text-mode file object.
    - [open_default] is [open(path, "r")], which decodes with the
      locale's preferred encoding;
    - [open_utf_8] is [open(path, "r", encoding="utf-8")], which decodes
      with the strict [codecs.utf_8_decode];
    - [csv_reader f delimiter] is [csv.reader(f, delimiter=delimiter)],
      given by the rows it yields; an error met while reading (a
      decoding error, a [csv.Error]) is a [Throw] at the row where it
      is met. *)
Record runtime : Type := {
  TextIO : Type;
  open_default : list byte → TextIO;
  open_utf_8 : list byte → TextIO;
  csv_reader : TextIO → str → iter (list str)
}.

(** [open(path, "r", encoding="utf-8-sig")] *)
Definition open_utf_8_sig (rt : runtime) (file : list byte) : TextIO rt :=
  open_utf_8 rt (utf_8_sig_payload file).

Definition validate_node_csv_structure (rt : runtime)
    (csv_path : str) (csv_delimiter : str) (file : list byte) : result unit :=
  let f := open_default rt file in
  let reader := csv_reader rt f csv_delimiter in
  '(fieldnames, reader) ← DictReader_fieldnames reader;
  match fieldnames with
  | None => Raise TypeError     (* "name" not in None *)
  | Some fieldnames =>
      if bool_decide (lit "name" ∉ fieldnames) then
        Raise (CSVStructureError (missing_name_message csv_path))
      else check_names csv_path ∅ (DictReader_iter fieldnames reader)
  end.

Definition validate_matrix_csv_structure (rt : runtime)
    (matrix_path : str) (csv_delimiter : str) (file : list byte) : result unit :=
  let f := open_utf_8_sig rt file in
  matrix ← list_of_iter (csv_reader rt f csv_delimiter);
  let row_count := length matrix in
  check_rows matrix_path row_count 0 matrix.

(** ** A runtime for concrete files

    Enough of the runtime to run the validators on small files without
    double quotes: the bytes are decoded as UTF-8 in either mode, line
    ends are made line feeds, the rows are the lines cut at the
    delimiter, and a blank line is the empty row. *)

Definition bytes_of (s : string) : list byte := String.list_byte_of_string s.

Definition in_range (lo hi b : N) : bool := ((lo <=? b) && (b <=? hi))%N.

(** Strict UTF-8: no overlong form, no surrogate, nothing above
    U+10FFFF; [None] stands for [UnicodeDecodeError]. *)
Fixpoint utf_8_decode (input : list N) : option str :=
  match input with
  | [] => Some []
  | b0 :: rest =>
      if (b0 <? 0x80)%N then cons b0 <$> utf_8_decode rest
      else if in_range 0xC2 0xDF b0 then
        match rest with
        | b1 :: rest =>
            if in_range 0x80 0xBF b1
            then cons ((b0 - 0xC0) * 64 + (b1 - 0x80))%N <$> utf_8_decode rest
            else None
        | _ => None
        end
      else if in_range 0xE0 0xEF b0 then
        match rest with
        | b1 :: b2 :: rest =>
            let lo := (if b0 =? 0xE0 then 0xA0 else 0x80)%N in
            let hi := (if b0 =? 0xED then 0x9F else 0xBF)%N in
            if in_range lo hi b1 && in_range 0x80 0xBF b2
            then cons ((b0 - 0xE0) * 4096 + (b1 - 0x80) * 64 + (b2 - 0x80))%N
                   <$> utf_8_decode rest
            else None
        | _ => None
        end
      else if in_range 0xF0 0xF4 b0 then
        match rest with
        | b1 :: b2 :: b3 :: rest =>
            let lo := (if b0 =? 0xF0 then 0x90 else 0x80)%N in
            let hi := (if b0 =? 0xF4 then 0x8F else 0xBF)%N in
            if in_range lo hi b1 && in_range 0x80 0xBF b2
               && in_range 0x80 0xBF b3
            then cons ((b0 - 0xF0) * 262144 + (b1 - 0x80) * 4096
                       + (b2 - 0x80) * 64 + (b3 - 0x80))%N
                   <$> utf_8_decode rest
            else None
        | _ => None
        end
      else None
  end.

(** Universal newlines: a carriage return, with the line feed after it
    if there is one, is read as a line feed. *)
Fixpoint universal_newlines (text : str) : str :=
  match text with
  | [] => []
  | c :: rest =>
      if (c =? 0x0D)%N then
        0x0A%N :: match rest with
                  | c' :: rest' =>
                      if (c' =? 0x0A)%N then universal_newlines rest'
                      else universal_newlines rest
                  | [] => []
                  end
      else c :: universal_newlines rest
  end.

Fixpoint split_on (sep : N) (s : str) : list str :=
  match s with
  | [] => [[]]
  | c :: s' =>
      if (c =? sep)%N then [] :: split_on sep s'
      else match split_on sep s' with
           | field :: fields => (c :: field) :: fields
           | [] => [[c]]
           end
  end.

(** The lines of a text, without their line ends; a final line end does
    not open another line. *)
Definition lines (text : str) : list str :=
  let ls := split_on 0x0A%N text in
  if bool_decide (last ls = Some []) then take (length ls - 1) ls else ls.

Definition plain_row (sep : N) (line : str) : list str :=
  if bool_decide (line = []) then [] else split_on sep line.

(** The text of the file, or [None] when it is not UTF-8. *)
Definition plain_open (file : list byte) : option str :=
  universal_newlines <$> utf_8_decode (Byte.to_N <$> file).

Definition plain_reader (f : option str) (delimiter : str) : iter (list str) :=
  match delimiter with
  | [sep] =>
      match f with
      | Some text => iter_of_list (plain_row sep <$> lines text)
      | None => Throw UnicodeDecodeError
      end
  | _ => Throw TypeError
  end.

Definition plain : runtime :=
  {| TextIO := option str;
     open_default := plain_open;
     open_utf_8 := plain_open;
     csv_reader := plain_reader |}.

(** A file given by its lines, each closed by a line feed. *)
Definition file_of_lines (ls : list string) : list byte :=
  concat ((λ l, bytes_of l ++ [x0a]) <$> ls).

Definition nodes_ok : list byte :=
  file_of_lines ["name;type"; "A;x"; EmptyString; " B ;y"].
Definition nodes_without_name : list byte :=
  file_of_lines ["id;type"; "A;x"; "A;y"].
Definition nodes_blank_name : list byte :=
  file_of_lines ["name;type"; "A;x"; " ;y"; "A;z"].
(** The third name is [A] between a space and a no-break space (U+00A0,
    the bytes C2 A0). *)
Definition nodes_duplicate : list byte :=
  file_of_lines ["name"; "A"; "B"] ++ bytes_of " A" ++ [xc2; xa0; x0a].
Definition nodes_duplicate_then_blank : list byte :=
  file_of_lines ["name;type"; "A;x"; "A;y"; ";z"].
Definition matrix_ok : list byte :=
  file_of_lines ["0;1"; "1;0"].
Definition matrix_long_row : list byte :=
  file_of_lines ["0;1"; "x;0;1"].
Definition matrix_non_binary_then_short : list byte :=
  file_of_lines ["2;0"; "0"].
Definition matrix_with_2 : list byte :=
  file_of_lines ["0;1"; "1;2"].
Definition nodes_two : list byte :=
  file_of_lines ["name;type"; "A;x"; "B;y"].
Definition nodes_empty_value : list byte :=
  file_of_lines ["name"; "A"; " "].
Definition nodes_blank_line : list byte :=
  file_of_lines ["name"; "A"; EmptyString; "B"].
(** Header [name], a row [A] and an empty line. *)
Definition nodes_A_then_empty_line : list byte :=
  file_of_lines ["name"; "A"; EmptyString].
Definition nodes_twice_A : list byte :=
  file_of_lines ["name"; "A"; "A"].
Definition matrix_3_2 : list byte :=
  file_of_lines ["0;1;0"; "1;0"].

Definition nodes_short_row : list byte :=
  file_of_lines ["type;name"; "x;A"; "y"].
(** The last name is a no-break space and an ideographic space (U+00A0,
    U+3000). *)
Definition nodes_unicode_blank : list byte :=
  file_of_lines ["name"; "A"] ++ [xc2; xa0; xe3; x80; x80; x0a].
Definition nodes_other_columns : list byte :=
  file_of_lines ["kind;name;extra"; "p; A;q;r"; EmptyString; "z;B"].
Definition nodes_B_then_A : list byte :=
  file_of_lines ["name;type"; "B;y"; "A;x"].
(** The third line is not UTF-8. *)
Definition nodes_ill_formed_line : list byte :=
  file_of_lines ["name"; "A"] ++ [xff; x0a] ++ file_of_lines ["A"].
Definition matrix_ill_formed_line : list byte :=
  file_of_lines ["0;2;1"] ++ [xff; x0a] ++ file_of_lines ["1;0"].
Definition matrix_blank_line : list byte :=
  file_of_lines ["0;1"; "1;0"; EmptyString].
Definition matrix_a : list byte :=
  file_of_lines ["0;1"; "1;1"].
Definition matrix_b : list byte :=
  file_of_lines ["1;1"; "1;0"].

(** The same runtime reading line by line, for files without carriage
    returns: ill-formed bytes are met at their line, after the rows
    before it, as in a file longer than the read buffer. *)
Fixpoint lazy_rows (sep : N) (byte_lines : list (list N)) : iter (list str) :=
  match byte_lines with
  | [] => Stop
  | line :: rest =>
      match utf_8_decode line with
      | Some text => Yield (plain_row sep text) (lazy_rows sep rest)
      | None => Throw UnicodeDecodeError
      end
  end.

Definition lazy_reader (f : list byte) (delimiter : str) : iter (list str) :=
  match delimiter with
  | [sep] => lazy_rows sep (lines (Byte.to_N <$> f))
  | _ => Throw TypeError
  end.

Definition plain_lazy : runtime :=
  {| TextIO := list byte;
     open_default := id;
     open_utf_8 := id;
     csv_reader := lazy_reader |}.

(** ** Vocabulary of the properties *)

(** The rows a [DictReader] turns into records: the non-blank ones. *)
Definition records (rows : list (list str)) : list (list str) :=
  filter (λ row, row ≠ []) rows.

(** What the name loop reads of the rows when the last [name] column is
    column [k]: of each record, the trimmed cell in that column, if the
    record has one. *)
Definition trimmed_names (k : nat) (rows : list (list str)) : list (option str) :=
  (λ row, strip <$> row !! k) <$> records rows.

(** [row["name"]] is the string [name]. *)
Definition has_name (fieldnames row : list str) (name : str) : Prop :=
  DictReader_row fieldnames row !! Some (lit "name") = Some (VStr name).

(** A cell whose exact value is ["0"] or ["1"]. *)
Definition binary (element : str) : Prop :=
  element = lit "0" ∨ element = lit "1".

#[global] Instance binary_dec element : Decision (binary element).
Proof. unfold binary. apply _. Defined.

(** Settles a closed decidable proposition by evaluation. *)
Ltac decide_it := apply (bool_decide_unpack _); vm_compute; exact I.

(** ** The iterator of a DictReader *)

Lemma DictReader_iter_app fieldnames rows rest :
  DictReader_iter fieldnames (iter_app rows rest)
  = iter_app (DictReader_row fieldnames <$> records rows)
             (DictReader_iter fieldnames rest).
Proof.
  induction rows as [|row rows IH]; simpl; [done|].
  unfold records in *. rewrite filter_cons.
  case_bool_decide as Hrow; case_decide; try done.
  simpl. by rewrite IH.
Qed.

Lemma iter_app_Stop {A} (l : list A) : iter_app l Stop = iter_of_list l.
Proof. induction l; simpl; congruence. Qed.

Lemma DictReader_iter_of_list fieldnames rows :
  DictReader_iter fieldnames (iter_of_list rows)
  = iter_of_list (DictReader_row fieldnames <$> records rows).
Proof. by rewrite <-!iter_app_Stop, DictReader_iter_app. Qed.

Lemma list_of_iter_of_list {A} (l : list A) :
  list_of_iter (iter_of_list l) = Return l.
Proof. induction l as [|a l IH]; simpl; [done|]. by rewrite IH. Qed.

(** ** The dictionary of a row *)

Lemma foldl_insert_other {A} (f : A → option str) (g : A → value)
    (l : list A) (d : dict) key :
  key ∉ f <$> l →
  foldl (λ d x, <[f x := g x]> d) d l !! key = d !! key.
Proof.
  revert d. induction l as [|x l IH]; intros d Hkey; simpl; [done|].
  apply not_elem_of_cons in Hkey as [Hx Hl].
  rewrite IH by done. by apply lookup_insert_ne.
Qed.

Lemma foldl_insert_last {A} (f : A → option str) (g : A → value)
    (l1 : list A) (x : A) (l2 : list A) (d : dict) :
  f x ∉ f <$> l2 →
  foldl (λ d x, <[f x := g x]> d) d (l1 ++ x :: l2) !! f x = Some (g x).
Proof.
  intros Hx. rewrite foldl_app. simpl.
  rewrite foldl_insert_other by done. apply lookup_insert_eq.
Qed.

(** The value under a field name is decided by the last column of that
    name: the cell of the row in that column, or [None] when the row is
    too short to have one. *)
Lemma DictReader_row_lookup fieldnames row key k :
  fieldnames !! k = Some key →
  key ∉ drop (S k) fieldnames →
  DictReader_row fieldnames row !! Some key
  = Some (from_option VStr VNone (row !! k)).
Proof.
  intros Hk Hlast. unfold DictReader_row, dict_of_pairs.
  pose proof (lookup_lt_Some _ _ _ Hk) as Hlt.
  assert (Some key ∉ Some <$> drop (S k) fieldnames) as Hlast'.
  { intros (key' & [= <-] & Hin)%list_elem_of_fmap. done. }
  destruct (row !! k) as [s|] eqn:Hs; simpl.
  - pose proof (lookup_lt_Some _ _ _ Hs) as Hlt'.
    assert (foldl (λ d kv, <[kv.1 := kv.2]> d) (∅ : dict)
              (zip (Some <$> fieldnames) (VStr <$> row)) !! Some key
            = Some (VStr s)) as Hd.
    { rewrite <-(take_drop_middle _ _ _ Hk), <-(take_drop_middle _ _ _ Hs).
      rewrite !fmap_app, !fmap_cons, zip_with_app
        by (rewrite !length_fmap, !length_take; lia).
      apply (foldl_insert_last fst snd).
      intros ([key' v] & Hkey' & Hin)%list_elem_of_fmap. simpl in Hkey'.
      subst key'. by apply elem_of_zip_l in Hin. }
    case_match; [by rewrite lookup_insert_ne|].
    case_match; [|done].
    rewrite (foldl_insert_other Some (λ _, VNone)); [done|].
    intros (key' & [= <-] & Hin)%list_elem_of_fmap. apply Hlast.
    replace (length row) with (S k + (length row - S k)) in Hin by lia.
    rewrite <-drop_drop in Hin. by eapply subseteq_drop.
  - apply lookup_ge_None_1 in Hs.
    rewrite (proj2 (Nat.ltb_ge _ _)) by lia.
    rewrite (proj2 (Nat.ltb_lt _ _)) by lia.
    rewrite <-(take_drop_middle _ _ _ Hk), drop_app_le
      by (rewrite length_take; lia).
    rewrite (take_drop_middle _ _ _ Hk).
    by apply (foldl_insert_last Some (λ _, VNone)).
Qed.

(** With the only (or last) [name] column at index [k], the name of a
    row is its cell at [k]. *)
Lemma has_name_cell fieldnames row k name :
  fieldnames !! k = Some (lit "name") →
  lit "name" ∉ drop (S k) fieldnames →
  row !! k = Some name →
  has_name fieldnames row name.
Proof.
  intros Hk Hlast Hname. unfold has_name.
  by rewrite (DictReader_row_lookup _ _ _ k), Hname.
Qed.

(** ** The name loop *)

(** Records with non-empty, pairwise distinct trimmed names, none of
    them seen before, are passed over; their trimmed names join the set. *)
Lemma check_names_clean csv_path fieldnames seen rows names rest :
  Forall2 (has_name fieldnames) rows names →
  Forall (λ name, strip name ≠ []) names →
  NoDup (strip <$> names) →
  (∀ name, name ∈ names → strip name ∉ seen) →
  check_names csv_path seen
    (iter_app (DictReader_row fieldnames <$> rows) rest)
  = check_names csv_path (list_to_set (strip <$> names) ∪ seen) rest.
Proof.
  intros Hrows. revert seen.
  induction Hrows as [|row name rows names Hrow _ IH];
    intros seen Hne Hnodup Hfresh; simpl.
  { by rewrite (left_id_L ∅ (∪)). }
  unfold has_name in Hrow. unfold getitem. rewrite Hrow. simpl.
  apply Forall_cons in Hne as [Hname Hne].
  apply NoDup_cons in Hnodup as [Hnotin Hnodup].
  rewrite bool_decide_eq_false_2 by done.
  rewrite bool_decide_eq_false_2 by (apply Hfresh; left).
  rewrite IH; [|done|done|].
  { by rewrite (assoc_L (∪)), (comm_L (∪) _ {[strip name]}). }
  intros name' Hin. apply not_elem_of_union. split.
  - apply not_elem_of_singleton. intros Heq. apply Hnotin.
    rewrite <-Heq. by apply list_elem_of_fmap_2.
  - apply Hfresh. by right.
Qed.

(** The first repetition in a list that has one. *)
Lemma first_repetition {A} `{EqDecision A} (l : list A) :
  ¬ NoDup l → ∃ pre x post, l = pre ++ x :: post ∧ NoDup pre ∧ x ∈ pre.
Proof.
  induction l as [|x l IH] using rev_ind; intros Hdup.
  { destruct Hdup. constructor. }
  destruct (decide (NoDup l)) as [Hl|Hl].
  - exists l, x, []. split_and!; [done..|].
    destruct (decide (x ∈ l)) as [|Hx]; [done|]. destruct Hdup.
    apply NoDup_app. split_and!; [done| |apply NoDup_singleton].
    intros y Hy ->%list_elem_of_singleton. done.
  - destruct (IH Hl) as (pre & y & post & -> & ? & ?).
    exists pre, y, (post ++ [x]). by rewrite <-app_assoc.
Qed.

(** ** The matrix loops *)

Lemma binary_in element : element ∈ [lit "0"; lit "1"] ↔ binary element.
Proof.
  unfold binary. rewrite !elem_of_cons, elem_of_nil. tauto.
Qed.

Lemma check_elements_binary matrix_path i j row :
  Forall binary row → check_elements matrix_path i j row = Return tt.
Proof.
  intros Hrow. revert j. induction Hrow as [|element row Hel _ IH];
    intros j; simpl; [done|].
  rewrite bool_decide_eq_false_2 by (rewrite binary_in; tauto). apply IH.
Qed.

Lemma check_elements_first matrix_path i j pre element post :
  Forall binary pre → ¬ binary element →
  check_elements matrix_path i j (pre ++ element :: post)
  = Raise (CSVStructureError
             (not_binary_message matrix_path element (i + 1) (j + length pre + 1))).
Proof.
  intros Hpre Hel. revert j. induction Hpre as [|e pre He _ IH];
    intros j; simpl.
  - rewrite bool_decide_eq_true_2 by (by rewrite binary_in).
    by rewrite Nat.add_0_r.
  - rewrite bool_decide_eq_false_2 by (rewrite binary_in; tauto).
    rewrite IH. do 3 f_equal. lia.
Qed.

(** Rows of the right length with binary cells are passed over. *)
Lemma check_rows_clean matrix_path row_count i pre rest :
  Forall (λ row, length row = row_count ∧ Forall binary row) pre →
  check_rows matrix_path row_count i (pre ++ rest)
  = check_rows matrix_path row_count (i + length pre) rest.
Proof.
  intros Hpre. revert i. induction Hpre as [|row pre [Hlen Hbin] _ IH];
    intros i; simpl.
  - by rewrite Nat.add_0_r.
  - rewrite bool_decide_eq_false_2 by (intros Hn; by apply Hn).
    rewrite check_elements_binary by done. rewrite IH. f_equal. lia.
Qed.

(** The first element of a list that fails a decidable property. *)
Lemma first_failure {A} (P : A → Prop) `{∀ x, Decision (P x)} (l : list A) :
  ¬ Forall P l → ∃ pre x post, l = pre ++ x :: post ∧ Forall P pre ∧ ¬ P x.
Proof.
  induction l as [|x l IH]; intros Hl.
  { destruct Hl. constructor. }
  destruct (decide (P x)) as [Hx|Hx].
  - destruct IH as (pre & y & post & -> & ? & ?).
    { intros Hall. apply Hl. by constructor. }
    exists (x :: pre), y, post. split_and!; [done| |done]. by constructor.
  - exists [], x, l. split_and!; [done| |done]. constructor.
Qed.

(** ** Properties of the validators *)

Section Properties.

Variable rt : runtime.

(** After a header with a [name] field, the validator is the name
    loop over the records. *)
Lemma validate_node_header csv_path csv_delimiter file fieldnames rest :
  csv_reader rt (open_default rt file) csv_delimiter = Yield fieldnames rest →
  lit "name" ∈ fieldnames →
  validate_node_csv_structure rt csv_path csv_delimiter file
  = check_names csv_path ∅ (DictReader_iter fieldnames rest).
Proof.
  intros Hreader Hname. unfold validate_node_csv_structure.
  rewrite Hreader. simpl.
  by rewrite bool_decide_eq_false_2 by (intros Hn; by apply Hn).
Qed.

(** Once the file is read, the validator is the row loop. *)
Lemma validate_matrix_rows matrix_path csv_delimiter file matrix :
  csv_reader rt (open_utf_8_sig rt file) csv_delimiter = iter_of_list matrix →
  validate_matrix_csv_structure rt matrix_path csv_delimiter file
  = check_rows matrix_path (length matrix) 0 matrix.
Proof.
  intros Hreader. unfold validate_matrix_csv_structure.
  by rewrite Hreader, list_of_iter_of_list.
Qed.

(** C1: on a node file whose header has a field [name] and whose
    records all have a [name] value that is non-empty once trimmed,
    the trimmed values being pairwise distinct over the whole file,
    [validate_node_csv_structure] returns normally. *)
Theorem node_valid_returns csv_path csv_delimiter file fieldnames rows names :
  csv_reader rt (open_default rt file) csv_delimiter
    = iter_of_list (fieldnames :: rows) →
  lit "name" ∈ fieldnames →
  Forall2 (has_name fieldnames) (records rows) names →
  Forall (λ name, strip name ≠ []) names →
  NoDup (strip <$> names) →
  validate_node_csv_structure rt csv_path csv_delimiter file = Return tt.
Proof.
  intros Hreader Hname Hrows Hne Hnodup.
  rewrite (validate_node_header _ _ _ _ _ Hreader Hname).
  rewrite DictReader_iter_of_list, <-iter_app_Stop.
  rewrite (check_names_clean _ _ _ _ names) by (done || set_solver).
  done.
Qed.

(** C2: on a matrix file in which every row has exactly R cells, R
    being the number of rows, and every cell is exactly ["0"] or
    ["1"], [validate_matrix_csv_structure] returns normally. *)
Theorem matrix_valid_returns matrix_path csv_delimiter file matrix :
  csv_reader rt (open_utf_8_sig rt file) csv_delimiter = iter_of_list matrix →
  Forall (λ row, length row = length matrix) matrix →
  Forall (Forall binary) matrix →
  validate_matrix_csv_structure rt matrix_path csv_delimiter file = Return tt.
Proof.
  intros Hreader Hlen Hbin.
  rewrite (validate_matrix_rows _ _ _ _ Hreader).
  rewrite <-(app_nil_r matrix) at 2. rewrite check_rows_clean; [done|].
  apply Forall_and. done.
Qed.

(** C3: when the header row has no field [name], the validator raises
    [CSVStructureError] with the message naming the file and the
    missing column, whatever follows the header. *)
Theorem node_missing_name_column csv_path csv_delimiter file fieldnames rest :
  csv_reader rt (open_default rt file) csv_delimiter = Yield fieldnames rest →
  lit "name" ∉ fieldnames →
  validate_node_csv_structure rt csv_path csv_delimiter file
  = Raise (CSVStructureError
             (csv_path ++ lit " should have a header with a 'name' column.")).
Proof.
  intros Hreader Hname. unfold validate_node_csv_structure.
  rewrite Hreader. simpl. by rewrite bool_decide_eq_true_2.
Qed.

(** C4, amended: when the first row whose cell count differs from the
    row count R comes after rows that have R cells, all of them ["0"]
    or ["1"], the validator raises the squareness error, whatever the
    cells of that row are: its length is checked before its cells. *)
Theorem matrix_first_bad_length_raises
    matrix_path csv_delimiter file before row after :
  csv_reader rt (open_utf_8_sig rt file) csv_delimiter
    = iter_of_list (before ++ row :: after) →
  Forall (λ r, length r = length (before ++ row :: after)
               ∧ Forall binary r) before →
  length row ≠ length (before ++ row :: after) →
  validate_matrix_csv_structure rt matrix_path csv_delimiter file
  = Raise (CSVStructureError (not_square_message matrix_path)).
Proof.
  intros Hreader Hbefore Hrow.
  rewrite (validate_matrix_rows _ _ _ _ Hreader).
  rewrite check_rows_clean by done. simpl.
  by rewrite bool_decide_eq_true_2.
Qed.

(** C5: on a square matrix file with a cell that is neither ["0"] nor
    ["1"], the validator raises [CSVStructureError] with the message
    that names the file, the value of the first such cell in row-major
    order, and its row and column counted from 1. *)
Theorem matrix_first_non_binary_raises
    matrix_path csv_delimiter file matrix (bad_row : list str) (bad : str) :
  csv_reader rt (open_utf_8_sig rt file) csv_delimiter = iter_of_list matrix →
  Forall (λ row, length row = length matrix) matrix →
  bad_row ∈ matrix → bad ∈ bad_row → ¬ binary bad →
  ∃ i j row element,
    matrix !! i = Some row ∧ row !! j = Some element ∧ ¬ binary element
    ∧ (∀ i' j' row' element',
          i' < i ∨ (i' = i ∧ j' < j) →
          matrix !! i' = Some row' → row' !! j' = Some element' →
          binary element')
    ∧ validate_matrix_csv_structure rt matrix_path csv_delimiter file
      = Raise (CSVStructureError
                 (lit "The matrix in '" ++ matrix_path
                  ++ lit "' is not binary. Found '" ++ element
                  ++ lit "' at row " ++ str_of_nat (i + 1)
                  ++ lit ", column " ++ str_of_nat (j + 1) ++ lit ".")).
Proof.
  intros Hreader Hlen Hbad_row Hbad Hnot.
  assert (¬ Forall (Forall binary) matrix) as Hbin.
  { intros Hall. apply Hnot.
    eapply Forall_forall; [|exact Hbad]. by eapply Forall_forall in Hall. }
  destruct (first_failure _ _ Hbin)
    as (before & row & after & -> & Hbefore & Hrow).
  destruct (first_failure _ _ Hrow)
    as (left & element & right & -> & Hleft & Helement).
  exists (length before), (length left), (left ++ element :: right), element.
  split_and!.
  - by apply list_lookup_middle.
  - by apply list_lookup_middle.
  - done.
  - intros i' j' row' element' [Hi|[-> Hj]] Hrow' Helement'.
    + rewrite lookup_app_l in Hrow' by done.
      eapply Forall_lookup_1 in Hbefore; [|done].
      by eapply Forall_lookup_1 in Hbefore.
    + rewrite list_lookup_middle in Hrow' by done.
      injection Hrow' as <-.
      rewrite lookup_app_l in Helement' by done.
      by eapply Forall_lookup_1 in Hleft.
  - rewrite (validate_matrix_rows _ _ _ _ Hreader).
    rewrite check_rows_clean; simpl.
    + apply Forall_app in Hlen as [_ [Hlen _]%Forall_cons].
      rewrite bool_decide_eq_false_2 by (intros Hn; by apply Hn).
      by rewrite check_elements_first.
    + apply Forall_app in Hlen as [Hlen _]. by apply Forall_and.
Qed.

(** C6, amended: let [row] be a non-blank row whose [name] value is a
    string (the row has a cell in the last [name] column) that is empty
    once trimmed, and let every non-blank row before it have a [name]
    value that is a string, non-empty once trimmed, these trimmed
    values being pairwise distinct.  Then the validator raises the
    empty-value error citing the file, whatever follows [row] in the
    file: later rows are not examined.  Blank rows are passed over by
    the [DictReader] and are no rows with a [name] value. *)
Theorem node_first_empty_name_raises
    csv_path csv_delimiter file fieldnames before names row name rest :
  csv_reader rt (open_default rt file) csv_delimiter
    = Yield fieldnames (iter_app before (Yield row rest)) →
  lit "name" ∈ fieldnames →
  Forall2 (has_name fieldnames) (records before) names →
  Forall (λ name, strip name ≠ []) names →
  NoDup (strip <$> names) →
  row ≠ [] → has_name fieldnames row name → strip name = [] →
  validate_node_csv_structure rt csv_path csv_delimiter file
  = Raise (CSVStructureError
             (lit "'" ++ csv_path
              ++ lit "' contains an empty value in the 'name' column.")).
Proof.
  intros Hreader Hname Hbefore Hne Hnodup Hrow Hrowname Hempty.
  rewrite (validate_node_header _ _ _ _ _ Hreader Hname).
  rewrite DictReader_iter_app.
  rewrite (check_names_clean _ _ _ _ names) by (done || set_solver).
  simpl. rewrite bool_decide_eq_false_2 by done. simpl.
  unfold has_name in Hrowname. unfold getitem. rewrite Hrowname. simpl.
  by rewrite bool_decide_eq_true_2.
Qed.

(** C7: on a node file whose header has a field [name], whose records
    all have a [name] value that is non-empty once trimmed, and in
    which two records have [name] values equal once trimmed, the
    validator raises the duplicate error. *)
Theorem node_duplicate_name_raises
    csv_path csv_delimiter file fieldnames rows names i j a b :
  csv_reader rt (open_default rt file) csv_delimiter
    = iter_of_list (fieldnames :: rows) →
  lit "name" ∈ fieldnames →
  Forall2 (has_name fieldnames) (records rows) names →
  Forall (λ name, strip name ≠ []) names →
  i ≠ j → names !! i = Some a → names !! j = Some b → strip a = strip b →
  validate_node_csv_structure rt csv_path csv_delimiter file
  = Raise (CSVStructureError
             (lit "'" ++ csv_path
              ++ lit "' contains duplicate names in the 'name' column.")).
Proof.
  intros Hreader Hname Hrows Hne Hij Ha Hb Hab.
  assert (¬ NoDup (strip <$> names)) as Hdup.
  { rewrite NoDup_alt. intros Hinj. apply Hij.
    apply (Hinj i j (strip a)); rewrite list_lookup_fmap.
    - by rewrite Ha.
    - by rewrite Hb, Hab. }
  destruct (first_repetition _ Hdup) as (pre & x & post & Hsplit & Hpre & Hx).
  apply fmap_app_inv in Hsplit as (npre & ntail & -> & Hntail & ->).
  symmetry in Hntail.
  apply fmap_cons_inv in Hntail as (n & npost & -> & -> & ->).
  apply Forall2_app_inv_r in Hrows as (rpre & rtail & Hrpre & Hrtail & Hrec).
  apply Forall2_cons_inv_r in Hrtail as (r & rpost & Hr & _ & ->).
  apply Forall_app in Hne as [Hnepre [Hnen _]%Forall_cons].
  rewrite (validate_node_header _ _ _ _ _ Hreader Hname).
  rewrite DictReader_iter_of_list, Hrec, fmap_app, fmap_cons.
  rewrite <-iter_app_Stop.
  assert (∀ {A} (l1 l2 : list A) rest,
             iter_app (l1 ++ l2) rest = iter_app l1 (iter_app l2 rest))
    as Happ by (intros A l1; induction l1; simpl; congruence).
  rewrite Happ. simpl.
  rewrite (check_names_clean _ _ _ _ npre) by (done || set_solver).
  simpl. unfold has_name in Hr. unfold getitem. rewrite Hr. simpl.
  rewrite bool_decide_eq_false_2 by done.
  rewrite bool_decide_eq_true_2; [done|].
  apply elem_of_union. left. by apply elem_of_list_to_set.
Qed.


(** C9: a matrix file with no row at all is accepted. *)
Theorem matrix_empty_accepted matrix_path csv_delimiter file :
  csv_reader rt (open_utf_8_sig rt file) csv_delimiter = Stop →
  validate_matrix_csv_structure rt matrix_path csv_delimiter file = Return tt.
Proof.
  intros Hreader. unfold validate_matrix_csv_structure.
  by rewrite Hreader.
Qed.

(** C10: on a node file with no header row at all, the field names
    are [None] and the membership test raises [TypeError]; no
    [CSVStructureError] is raised. *)
Theorem node_empty_file_type_error csv_path csv_delimiter file :
  csv_reader rt (open_default rt file) csv_delimiter = Stop →
  DictReader_fieldnames (csv_reader rt (open_default rt file) csv_delimiter)
    = Return (None, Stop)
  ∧ validate_node_csv_structure rt csv_path csv_delimiter file = Raise TypeError
  ∧ ∀ message,
      validate_node_csv_structure rt csv_path csv_delimiter file
      ≠ Raise (CSVStructureError message).
Proof.
  intros Hreader. unfold validate_node_csv_structure.
  rewrite Hreader. simpl. split_and!; [done..|]. intros message. discriminate.
Qed.

End Properties.

(** ** The validators on concrete files *)

Lemma node_valid_returns_witness :
  validate_node_csv_structure plain (lit "nodes.csv") (lit ";") nodes_ok = Return tt.
Proof.
  apply (node_valid_returns plain
           (lit "nodes.csv") (lit ";") nodes_ok
           [lit "name"; lit "type"]
           [[lit "A"; lit "x"]; []; [lit " B "; lit "y"]]
           [lit "A"; lit " B "]).
  - vm_compute. reflexivity.
  - decide_it.
  - repeat constructor; vm_compute; reflexivity.
  - decide_it.
  - decide_it.
Defined.

Lemma matrix_valid_returns_witness :
  validate_matrix_csv_structure plain (lit "dsm.csv") (lit ";") matrix_ok = Return tt.
Proof.
  apply (matrix_valid_returns plain
           (lit "dsm.csv") (lit ";") matrix_ok
           [[lit "0"; lit "1"]; [lit "1"; lit "0"]]).
  - vm_compute. reflexivity.
  - decide_it.
  - decide_it.
Defined.

Lemma node_missing_name_column_witness :
  validate_node_csv_structure plain (lit "nodes.csv") (lit ";") nodes_without_name
  = Raise (CSVStructureError
             (lit "nodes.csv should have a header with a 'name' column.")).
Proof.
  apply (node_missing_name_column plain
           (lit "nodes.csv") (lit ";") nodes_without_name
           [lit "id"; lit "type"]
           (iter_of_list [[lit "A"; lit "x"]; [lit "A"; lit "y"]])).
  - vm_compute. reflexivity.
  - decide_it.
Defined.

Lemma matrix_first_bad_length_raises_witness :
  validate_matrix_csv_structure plain (lit "dsm.csv") (lit ";") matrix_long_row
  = Raise (CSVStructureError (not_square_message (lit "dsm.csv"))).
Proof.
  apply (matrix_first_bad_length_raises plain
           (lit "dsm.csv") (lit ";") matrix_long_row
           [[lit "0"; lit "1"]] [lit "x"; lit "0"; lit "1"] []).
  - vm_compute. reflexivity.
  - decide_it.
  - decide_it.
Defined.

Lemma matrix_first_non_binary_raises_witness :
  ∃ i j row element,
    [[lit "0"; lit "1"]; [lit "1"; lit "2"]] !! i = Some row
    ∧ row !! j = Some element ∧ ¬ binary element
    ∧ (∀ i' j' row' element',
          i' < i ∨ (i' = i ∧ j' < j) →
          [[lit "0"; lit "1"]; [lit "1"; lit "2"]] !! i' = Some row' →
          row' !! j' = Some element' → binary element')
    ∧ validate_matrix_csv_structure plain (lit "dsm.csv") (lit ";") matrix_with_2
      = Raise (CSVStructureError
                 (lit "The matrix in '" ++ lit "dsm.csv"
                  ++ lit "' is not binary. Found '" ++ element
                  ++ lit "' at row " ++ str_of_nat (i + 1)
                  ++ lit ", column " ++ str_of_nat (j + 1) ++ lit ".")).
Proof.
  apply (matrix_first_non_binary_raises plain
           (lit "dsm.csv") (lit ";") matrix_with_2
           [[lit "0"; lit "1"]; [lit "1"; lit "2"]]
           [lit "1"; lit "2"] (lit "2")).
  - vm_compute. reflexivity.
  - decide_it.
  - decide_it.
  - decide_it.
  - decide_it.
Defined.

Lemma node_first_empty_name_raises_witness :
  validate_node_csv_structure plain (lit "nodes.csv") (lit ";") nodes_blank_name
  = Raise (CSVStructureError
             (lit "'nodes.csv' contains an empty value in the 'name' column.")).
Proof.
  apply (node_first_empty_name_raises plain
           (lit "nodes.csv") (lit ";") nodes_blank_name
           [lit "name"; lit "type"]
           [[lit "A"; lit "x"]] [lit "A"]
           [lit " "; lit "y"] (lit " ")
           (iter_of_list [[lit "A"; lit "z"]])).
  - vm_compute. reflexivity.
  - decide_it.
  - repeat constructor; vm_compute; reflexivity.
  - decide_it.
  - decide_it.
  - discriminate.
  - vm_compute. reflexivity.
  - vm_compute. reflexivity.
Defined.

Lemma node_duplicate_name_raises_witness :
  validate_node_csv_structure plain (lit "nodes.csv") (lit ";") nodes_duplicate
  = Raise (CSVStructureError
             (lit "'nodes.csv' contains duplicate names in the 'name' column.")).
Proof.
  apply (node_duplicate_name_raises plain
           (lit "nodes.csv") (lit ";") nodes_duplicate
           [lit "name"] [[lit "A"]; [lit "B"]; [lit " A" ++ [0xA0%N]]]
           [lit "A"; lit "B"; lit " A" ++ [0xA0%N]]
           0 2 (lit "A") (lit " A" ++ [0xA0%N])).
  - vm_compute. reflexivity.
  - decide_it.
  - repeat constructor; vm_compute; reflexivity.
  - decide_it.
  - discriminate.
  - reflexivity.
  - reflexivity.
  - vm_compute. reflexivity.
Defined.


Lemma matrix_empty_accepted_witness :
  validate_matrix_csv_structure plain (lit "dsm.csv") (lit ";") [] = Return tt.
Proof.
  apply (matrix_empty_accepted plain
           (lit "dsm.csv") (lit ";") []).
  vm_compute. reflexivity.
Defined.

Lemma node_empty_file_type_error_witness :
  DictReader_fieldnames (csv_reader plain (open_default plain []) (lit ";"))
    = Return (None, Stop)
  ∧ validate_node_csv_structure plain (lit "nodes.csv") (lit ";") [] = Raise TypeError
  ∧ ∀ message,
      validate_node_csv_structure plain (lit "nodes.csv") (lit ";") []
      ≠ Raise (CSVStructureError message).
Proof.
  apply (node_empty_file_type_error plain
           (lit "nodes.csv") (lit ";") []).
  vm_compute. reflexivity.
Defined.

(** C4, as stated, fails: a matrix file with a row of the wrong length
    after a row that has a cell other than ["0"] and ["1"] gets the
    binary error of that cell, not the squareness error. *)
Lemma matrix_bad_length_not_always_reported :
  csv_reader plain (open_utf_8_sig plain matrix_non_binary_then_short)
    (lit ";")
    = iter_of_list [[lit "2"; lit "0"]; [lit "0"]]
  ∧ length [lit "0"] ≠ length [[lit "2"; lit "0"]; [lit "0"]]
  ∧ validate_matrix_csv_structure plain (lit "dsm.csv") (lit ";") matrix_non_binary_then_short
    = Raise (CSVStructureError
               (lit "The matrix in 'dsm.csv' is not binary. Found '2' at row 1, column 1."))
  ∧ validate_matrix_csv_structure plain (lit "dsm.csv") (lit ";") matrix_non_binary_then_short
    ≠ Raise (CSVStructureError (not_square_message (lit "dsm.csv"))).
Proof.
  split_and!; [by vm_compute|by vm_compute|by vm_compute|].
  vm_compute. discriminate.
Qed.

(** C6, as stated, fails in three ways.  A row with an empty name after
    a repeated name gets the duplicate error of the earlier row; an
    empty line, the empty row of the specification's third scenario, is
    passed over and the file is accepted; a row with no cell in the
    [name] column gets [AttributeError].  In none of them is the
    empty-value error raised. *)
Lemma node_empty_name_not_always_reported :
  (csv_reader plain (open_default plain nodes_duplicate_then_blank) (lit ";")
     = iter_of_list [[lit "name"; lit "type"]; [lit "A"; lit "x"];
                     [lit "A"; lit "y"]; [[]; lit "z"]]
   ∧ has_name [lit "name"; lit "type"] [[]; lit "z"] []
   ∧ strip [] = []
   ∧ validate_node_csv_structure plain (lit "nodes.csv") (lit ";")
       nodes_duplicate_then_blank
     = Raise (CSVStructureError
                (lit "'nodes.csv' contains duplicate names in the 'name' column."))
   ∧ validate_node_csv_structure plain (lit "nodes.csv") (lit ";")
       nodes_duplicate_then_blank
     ≠ Raise (CSVStructureError (empty_name_message (lit "nodes.csv"))))
  ∧ (csv_reader plain (open_default plain nodes_A_then_empty_line) (lit ";")
       = iter_of_list [[lit "name"]; [lit "A"]; []]
     ∧ validate_node_csv_structure plain (lit "nodes.csv") (lit ";")
         nodes_A_then_empty_line
       = Return tt)
  ∧ (csv_reader plain (open_default plain nodes_short_row) (lit ";")
       = iter_of_list [[lit "type"; lit "name"]; [lit "x"; lit "A"]; [lit "y"]]
     ∧ DictReader_row [lit "type"; lit "name"] [lit "y"] !! Some (lit "name")
       = Some VNone
     ∧ validate_node_csv_structure plain (lit "nodes.csv") (lit ";")
         nodes_short_row
       = Raise AttributeError).
Proof.
  split_and!; by vm_compute.
Qed.


(** ** The scenarios of the specification *)

Example scenario_node_ok :
  validate_node_csv_structure plain (lit "n.csv") (lit ";") nodes_two
  = Return tt.
Proof. vm_compute. reflexivity. Qed.

Example scenario_node_no_name :
  validate_node_csv_structure plain (lit "n.csv") (lit ";") nodes_without_name
  = Raise (CSVStructureError
             (lit "n.csv should have a header with a 'name' column.")).
Proof. vm_compute. reflexivity. Qed.

(** The third scenario with a name made of one space: the empty line of
    the scenario as written is a blank row, which is passed over. *)
Example scenario_node_empty_value :
  validate_node_csv_structure plain (lit "n.csv") (lit ";") nodes_empty_value
  = Raise (CSVStructureError
             (lit "'n.csv' contains an empty value in the 'name' column.")).
Proof. vm_compute. reflexivity. Qed.

(** A blank line is no record: the [DictReader] passes over it. *)
Example scenario_node_blank_line :
  validate_node_csv_structure plain (lit "n.csv") (lit ";") nodes_blank_line
  = Return tt.
Proof. vm_compute. reflexivity. Qed.

Example scenario_node_duplicate :
  validate_node_csv_structure plain (lit "n.csv") (lit ";") nodes_twice_A
  = Raise (CSVStructureError
             (lit "'n.csv' contains duplicate names in the 'name' column.")).
Proof. vm_compute. reflexivity. Qed.

Example scenario_matrix_ok :
  validate_matrix_csv_structure plain (lit "m.csv") (lit ";") matrix_ok
  = Return tt.
Proof. vm_compute. reflexivity. Qed.

Example scenario_matrix_not_square :
  validate_matrix_csv_structure plain (lit "m.csv") (lit ";") matrix_3_2
  = Raise (CSVStructureError (not_square_message (lit "m.csv"))).
Proof. vm_compute. reflexivity. Qed.

Example scenario_matrix_not_binary :
  validate_matrix_csv_structure plain (lit "m.csv") (lit ";") matrix_with_2
  = Raise (CSVStructureError
             (lit "The matrix in 'm.csv' is not binary. Found '2' at row 2, column 2.")).
Proof. vm_compute. reflexivity. Qed.

(** ** Trimming *)

Lemma lstrip_nil s : lstrip s = [] ↔ Forall (λ c, isspace c = true) s.
Proof.
  induction s as [|c s IH]; simpl; [by split|].
  destruct (isspace c) eqn:Hc.
  - rewrite IH. split; [by constructor|]. by intros [_ ?]%Forall_cons.
  - split; [done|]. intros [? _]%Forall_cons. congruence.
Qed.

Lemma lstrip_head s c t : lstrip s = c :: t → isspace c = false.
Proof.
  induction s as [|c' s IH]; simpl; [done|].
  destruct (isspace c') eqn:Hc; [done|]. by intros [= <- _].
Qed.

(** A string is trimmed to nothing exactly when it is made of
    whitespace. *)
Lemma strip_nil s : strip s = [] ↔ Forall (λ c, isspace c = true) s.
Proof.
  unfold strip, rstrip. split.
  - intros Hs. apply (f_equal reverse) in Hs.
    rewrite reverse_involutive, reverse_nil in Hs.
    apply lstrip_nil, Forall_reverse in Hs.
    destruct (lstrip s) as [|c t] eqn:Hl; [by apply lstrip_nil|].
    apply lstrip_head in Hl. rewrite reverse_involutive in Hs.
    apply Forall_cons in Hs as [? _]. congruence.
  - intros Hs. apply lstrip_nil in Hs. by rewrite Hs.
Qed.

Lemma lstrip_space_app ws s :
  Forall (λ c, isspace c = true) ws → lstrip (ws ++ s) = lstrip s.
Proof.
  induction 1 as [|c ws Hc _ IH]; simpl; [done|]. by rewrite Hc.
Qed.

Lemma lstrip_app s t : lstrip s ≠ [] → lstrip (s ++ t) = lstrip s ++ t.
Proof.
  induction s as [|c s IH]; simpl; [done|].
  destruct (isspace c); [done|]. done.
Qed.

(** Whitespace around a string does not change what it is trimmed to. *)
Lemma strip_padding ws1 s ws2 :
  Forall (λ c, isspace c = true) ws1 →
  Forall (λ c, isspace c = true) ws2 →
  strip (ws1 ++ s ++ ws2) = strip s.
Proof.
  intros H1 H2. unfold strip. rewrite lstrip_space_app by done.
  destruct (decide (lstrip s = [])) as [Hs|Hs].
  - rewrite Hs. apply lstrip_nil in Hs.
    assert (lstrip (s ++ ws2) = []) as ->; [|done].
    apply lstrip_nil. by apply Forall_app.
  - rewrite lstrip_app by done. unfold rstrip.
    rewrite reverse_app, lstrip_space_app; [done|]. by apply Forall_reverse.
Qed.

(** ** Outcomes of the name loop *)

Lemma last_occurrence {A} `{EqDecision A} (x : A) (l : list A) :
  x ∈ l → ∃ k, l !! k = Some x ∧ x ∉ drop (S k) l.
Proof.
  induction l as [|a l IH]; [by intros ?%elem_of_nil|].
  intros Hx. destruct (decide (x ∈ l)) as [Hl|Hl].
  - destruct (IH Hl) as (k & ? & ?). by exists (S k).
  - apply elem_of_cons in Hx as [->|?]; [|done]. exists 0. split; [done|].
    simpl. by rewrite drop_0.
Qed.

(** Under a header with a field [name], every row dictionary has the
    key [name], bound to a cell or to [None]. *)
Lemma DictReader_row_name fieldnames row :
  lit "name" ∈ fieldnames →
  DictReader_row fieldnames row !! Some (lit "name") = Some VNone
  ∨ ∃ s, has_name fieldnames row s.
Proof.
  intros (k & Hk & Hlast)%last_occurrence. unfold has_name.
  rewrite (DictReader_row_lookup _ _ _ k) by done.
  destruct (row !! k); simpl; eauto.
Qed.

Lemma check_names_outcomes csv_path fieldnames seen rows :
  lit "name" ∈ fieldnames →
  let outcome :=
    check_names csv_path seen (iter_of_list (DictReader_row fieldnames <$> rows))
  in
  outcome = Return tt
  ∨ outcome = Raise (CSVStructureError (empty_name_message csv_path))
  ∨ outcome = Raise (CSVStructureError (duplicate_name_message csv_path))
  ∨ outcome = Raise AttributeError.
Proof.
  intros Hname. revert seen. induction rows as [|row rows IH];
    intros seen; simpl; [by left|].
  unfold getitem.
  destruct (DictReader_row_name fieldnames row Hname) as [->|[s ->]]; simpl.
  - by do 3 right.
  - case_bool_decide; [by right; left|].
    case_bool_decide; [by right; right; left|]. apply IH.
Qed.

(** If the name loop comes to its end, the reader came to its end, and
    the records have non-empty, pairwise distinct trimmed names, none of
    them seen before. *)
Lemma check_names_returns csv_path fieldnames seen reader :
  check_names csv_path seen (DictReader_iter fieldnames reader) = Return tt →
  ∃ rows names,
    reader = iter_of_list rows
    ∧ Forall2 (has_name fieldnames) (records rows) names
    ∧ Forall (λ name, strip name ≠ []) names
    ∧ NoDup (strip <$> names)
    ∧ ∀ name, name ∈ names → strip name ∉ seen.
Proof.
  revert seen. induction reader as [|e|row rest IH]; intros seen; simpl.
  - intros _. exists [], []. split_and!; try done; try constructor.
    by intros ? ?%elem_of_nil.
  - done.
  - case_bool_decide as Hrow.
    + intros (rows & names & -> & ? & ? & ? & ?)%IH. subst row.
      exists ([] :: rows), names. by split_and!.
    + simpl. unfold getitem.
      destruct (DictReader_row fieldnames row !! Some (lit "name"))
        as [[s| |l]|] eqn:Hs; simpl; try done.
      case_bool_decide as Hempty; [done|].
      case_bool_decide as Hseen; [done|].
      intros (rows & names & -> & Hrows & Hne & Hnodup & Hfresh)%IH.
      exists (row :: rows), (s :: names). split_and!.
      * done.
      * unfold records. rewrite filter_cons. case_decide; [|done].
        by constructor.
      * by constructor.
      * rewrite fmap_cons. apply NoDup_cons. split; [|done].
        intros (name & Heq & Hin)%list_elem_of_fmap.
        apply (Hfresh name Hin). rewrite <-Heq.
        apply elem_of_union. left. by apply elem_of_singleton.
      * intros name [->|Hin]%elem_of_cons; [done|].
        intros Hn. apply (Hfresh name Hin). apply elem_of_union. by right.
Qed.

(** The first repeated trimmed name ends the loop with the duplicate
    error. *)
Lemma check_names_repetition csv_path fieldnames rows names :
  Forall2 (has_name fieldnames) rows names →
  Forall (λ name, strip name ≠ []) names →
  ¬ NoDup (strip <$> names) →
  check_names csv_path ∅ (iter_of_list (DictReader_row fieldnames <$> rows))
  = Raise (CSVStructureError (duplicate_name_message csv_path)).
Proof.
  intros Hrows Hne Hdup.
  destruct (first_repetition _ Hdup) as (pre & x & post & Hsplit & Hpre & Hx).
  apply fmap_app_inv in Hsplit as (npre & ntail & -> & Hntail & ->).
  symmetry in Hntail.
  apply fmap_cons_inv in Hntail as (n & npost & -> & -> & ->).
  apply Forall2_app_inv_r in Hrows as (rpre & rtail & Hrpre & Hrtail & ->).
  apply Forall2_cons_inv_r in Hrtail as (r & rpost & Hr & _ & ->).
  apply Forall_app in Hne as [Hnepre [Hnen _]%Forall_cons].
  rewrite fmap_app, fmap_cons.
  assert (∀ {A} (l1 l2 : list A),
             iter_of_list (l1 ++ l2) = iter_app l1 (iter_of_list l2))
    as Happ by (intros A l1; induction l1; simpl; congruence).
  rewrite Happ. simpl.
  rewrite (check_names_clean _ _ _ _ npre);
    [|done|done|done|intros; apply not_elem_of_empty].
  simpl. unfold has_name in Hr. unfold getitem. rewrite Hr. simpl.
  rewrite bool_decide_eq_false_2 by done.
  rewrite bool_decide_eq_true_2; [done|].
  apply elem_of_union. left. by apply elem_of_list_to_set.
Qed.

(** The name loop reads of a record only its trimmed cell in the last
    [name] column. *)
Lemma check_names_trimmed csv_path fieldnames1 k1 fieldnames2 k2 :
  fieldnames1 !! k1 = Some (lit "name") →
  lit "name" ∉ drop (S k1) fieldnames1 →
  fieldnames2 !! k2 = Some (lit "name") →
  lit "name" ∉ drop (S k2) fieldnames2 →
  ∀ rows1 rows2 seen,
    (λ row, strip <$> row !! k1) <$> rows1
    = (λ row, strip <$> row !! k2) <$> rows2 →
    check_names csv_path seen
      (iter_of_list (DictReader_row fieldnames1 <$> rows1))
    = check_names csv_path seen
        (iter_of_list (DictReader_row fieldnames2 <$> rows2)).
Proof.
  intros Hk1 Hlast1 Hk2 Hlast2.
  induction rows1 as [|row1 rows1 IH]; intros [|row2 rows2] seen Heq;
    simpl in *; try done.
  injection Heq as Hcell Heq. unfold getitem.
  rewrite (DictReader_row_lookup _ _ _ k1), (DictReader_row_lookup _ _ _ k2)
    by done.
  destruct (row1 !! k1) as [a|], (row2 !! k2) as [b|]; simpl in *; try done.
  injection Hcell as ->.
  repeat case_bool_decide; try done. by apply IH.
Qed.

(** ** Outcomes of the matrix loops *)

Lemma list_of_iter_returns {A} (it : iter A) (l : list A) :
  list_of_iter it = Return l → it = iter_of_list l.
Proof.
  revert l. induction it as [|e|a rest IH]; intros l; simpl.
  - by intros [= <-].
  - done.
  - destruct (list_of_iter rest) as [l'|e]; simpl; [|done].
    intros [= <-]. simpl. f_equal. by apply IH.
Qed.

Lemma list_of_iter_throw {A} (l : list A) e :
  list_of_iter (iter_app l (Throw e)) = Raise e.
Proof. induction l as [|a l IH]; simpl; [done|]. by rewrite IH. Qed.

Lemma check_elements_outcomes matrix_path i j row :
  check_elements matrix_path i j row = Return tt ∧ Forall binary row
  ∨ ∃ j' element,
      row !! j' = Some element ∧ ¬ binary element
      ∧ check_elements matrix_path i j row
        = Raise (CSVStructureError
                   (not_binary_message matrix_path element (i + 1) (j + j' + 1))).
Proof.
  revert j. induction row as [|element row IH]; intros j; simpl.
  { left. split; [done|constructor]. }
  case_bool_decide as Hel.
  - right. exists 0, element. rewrite binary_in in Hel.
    split_and!; [done..|]. by rewrite Nat.add_0_r.
  - destruct (IH (S j)) as [[-> Hrow]|(j' & e & ? & ? & ->)].
    + left. split; [done|]. constructor; [|done].
      by apply binary_in.
    + right. exists (S j'), e. split_and!; [done..|]. do 3 f_equal. lia.
Qed.

Lemma check_rows_outcomes matrix_path row_count i matrix :
  check_rows matrix_path row_count i matrix = Return tt
  ∧ Forall (λ row, length row = row_count ∧ Forall binary row) matrix
  ∨ check_rows matrix_path row_count i matrix
    = Raise (CSVStructureError (not_square_message matrix_path))
    ∧ ¬ Forall (λ row, length row = row_count) matrix
  ∨ ∃ i' j row element,
      matrix !! i' = Some row ∧ length row = row_count
      ∧ row !! j = Some element ∧ ¬ binary element
      ∧ check_rows matrix_path row_count i matrix
        = Raise (CSVStructureError
                   (not_binary_message matrix_path element (i + i' + 1) (j + 1))).
Proof.
  revert i. induction matrix as [|row matrix IH]; intros i; simpl.
  { left. split; [done|constructor]. }
  case_bool_decide as Hlen.
  { right. left. split; [done|]. by intros [? _]%Forall_cons. }
  destruct (check_elements_outcomes matrix_path i 0 row)
    as [[-> Hrow]|(j & e & ? & ? & ->)].
  - destruct (IH (S i))
      as [[-> Hm]|[[-> Hm]|(i' & j & r & e & ? & ? & ? & ? & ->)]].
    + left. split; [done|]. by constructor.
    + right. left. split; [done|]. by intros [_ ?]%Forall_cons.
    + right. right. exists (S i'), j, r, e. split_and!; [done..|].
      do 3 f_equal. lia.
  - right. right. exists 0, j, row, e. split_and!; [done..|].
    by rewrite Nat.add_0_r.
Qed.


Lemma iter_of_list_inj {A} (l1 l2 : list A) :
  iter_of_list l1 = iter_of_list l2 → l1 = l2.
Proof.
  revert l2. induction l1 as [|a l1 IH]; intros [|b l2]; simpl; try done.
  intros [= -> ?]. f_equal. by apply IH.
Qed.

Lemma valid_rows_shuffled row_count (matrix1 matrix2 : list (list str)) :
  Forall2 (≡ₚ) matrix1 matrix2 →
  Forall (λ row, length row = row_count ∧ Forall binary row) matrix1 →
  Forall (λ row, length row = row_count ∧ Forall binary row) matrix2.
Proof.
  induction 1 as [|r1 r2 ? ? Hr _ IH]; [constructor|].
  intros [[Hlen Hb] Hm]%Forall_cons. constructor; [|by apply IH].
  by rewrite <-Hr.
Qed.

Lemma Forall2_Permutation_l {A B} (R : A → B → Prop) l l' k :
  Forall2 R l k → l ≡ₚ l' → ∃ k', k ≡ₚ k' ∧ Forall2 R l' k'.
Proof.
  intros HR Hperm. revert k HR.
  induction Hperm as [|x l l' _ IH|x y l|l l' l'' _ IH1 _ IH2]; intros k HR.
  - apply Forall2_nil_inv_l in HR as ->. by exists [].
  - apply Forall2_cons_inv_l in HR as (b & k0 & ? & HR & ->).
    destruct (IH _ HR) as (k' & ? & ?). exists (b :: k').
    split; [by constructor|by constructor].
  - apply Forall2_cons_inv_l in HR as (b & k0 & ? & HR & ->).
    apply Forall2_cons_inv_l in HR as (c & k1 & ? & HR & ->).
    exists (c :: b :: k1). split; [apply perm_swap|by repeat constructor].
  - destruct (IH1 _ HR) as (k' & ? & HR').
    destruct (IH2 _ HR') as (k'' & ? & ?). exists k''.
    split; [by etrans|done].
Qed.

(** ** Further properties of the validators *)

Section Further.

Variable rt : runtime.

(** X1: the node validator returns normally only when the file was read
    to its end without error, its header has a field [name], and its
    records have [name] values that are non-empty once trimmed and
    pairwise distinct once trimmed. *)
Theorem node_accepts_only_valid csv_path csv_delimiter file :
  validate_node_csv_structure rt csv_path csv_delimiter file = Return tt →
  ∃ fieldnames rows names,
    csv_reader rt (open_default rt file) csv_delimiter
      = iter_of_list (fieldnames :: rows)
    ∧ lit "name" ∈ fieldnames
    ∧ Forall2 (has_name fieldnames) (records rows) names
    ∧ Forall (λ name, strip name ≠ []) names
    ∧ NoDup (strip <$> names).
Proof.
  unfold validate_node_csv_structure.
  destruct (csv_reader rt (open_default rt file) csv_delimiter)
    as [|e|fieldnames rest]; simpl; try done.
  case_bool_decide as Hname; [done|].
  intros (rows & names & -> & ? & ? & ? & _)%check_names_returns.
  by exists fieldnames, rows, names.
Qed.

(** X2: on a file read to its end whose header has a field [name], the
    node validator returns, raises one of its two row errors, or raises
    [AttributeError] (a row without a cell in the [name] column); the
    lookup [row["name"]] never fails. *)
Theorem node_outcomes csv_path csv_delimiter file fieldnames rows :
  csv_reader rt (open_default rt file) csv_delimiter
    = iter_of_list (fieldnames :: rows) →
  lit "name" ∈ fieldnames →
  validate_node_csv_structure rt csv_path csv_delimiter file = Return tt
  ∨ validate_node_csv_structure rt csv_path csv_delimiter file
    = Raise (CSVStructureError (empty_name_message csv_path))
  ∨ validate_node_csv_structure rt csv_path csv_delimiter file
    = Raise (CSVStructureError (duplicate_name_message csv_path))
  ∨ validate_node_csv_structure rt csv_path csv_delimiter file
    = Raise AttributeError.
Proof.
  intros Hreader Hname.
  rewrite (validate_node_header _ _ _ _ _ _ Hreader Hname).
  rewrite DictReader_iter_of_list. by apply check_names_outcomes.
Qed.

(** X3: after records with non-empty, pairwise distinct trimmed names,
    a non-blank row too short to have a cell in the last [name] column
    makes the node validator raise [AttributeError], not a
    [CSVStructureError]. *)
Theorem node_short_row_attribute_error
    csv_path csv_delimiter file fieldnames k before names row rest :
  csv_reader rt (open_default rt file) csv_delimiter
    = Yield fieldnames (iter_app before (Yield row rest)) →
  fieldnames !! k = Some (lit "name") →
  lit "name" ∉ drop (S k) fieldnames →
  Forall2 (has_name fieldnames) (records before) names →
  Forall (λ name, strip name ≠ []) names →
  NoDup (strip <$> names) →
  row ≠ [] → length row ≤ k →
  validate_node_csv_structure rt csv_path csv_delimiter file
  = Raise AttributeError.
Proof.
  intros Hreader Hk Hlast Hbefore Hne Hnodup Hrow Hshort.
  rewrite (validate_node_header _ _ _ _ _ _ Hreader)
    by (by eapply list_elem_of_lookup_2).
  rewrite DictReader_iter_app.
  rewrite (check_names_clean _ _ _ _ names);
    [|done|done|done|intros; apply not_elem_of_empty].
  simpl. rewrite bool_decide_eq_false_2 by done. simpl.
  unfold getitem. rewrite (DictReader_row_lookup _ _ _ k) by done.
  by rewrite (lookup_ge_None_2 row k).
Qed.

(** X4: the node validator reads as it checks: an exception of the
    reader met after records with non-empty, pairwise distinct trimmed
    names is the exception the validator raises. *)
Theorem node_reader_error_propagates
    csv_path csv_delimiter file fieldnames before names e :
  csv_reader rt (open_default rt file) csv_delimiter
    = Yield fieldnames (iter_app before (Throw e)) →
  lit "name" ∈ fieldnames →
  Forall2 (has_name fieldnames) (records before) names →
  Forall (λ name, strip name ≠ []) names →
  NoDup (strip <$> names) →
  validate_node_csv_structure rt csv_path csv_delimiter file = Raise e.
Proof.
  intros Hreader Hname Hbefore Hne Hnodup.
  rewrite (validate_node_header _ _ _ _ _ _ Hreader Hname).
  rewrite DictReader_iter_app.
  by rewrite (check_names_clean _ _ _ _ names);
    [|done|done|done|intros; apply not_elem_of_empty].
Qed.

(** X5: the outcome of the node validator depends on the file only
    through the trimmed cells of its records in the last [name] column:
    two files read to their end that agree on these get the same
    outcome, whatever their other columns and wherever the column is. *)
Theorem node_only_trimmed_names_matter
    csv_path csv_delimiter file1 file2 fieldnames1 k1 rows1 fieldnames2 k2 rows2 :
  csv_reader rt (open_default rt file1) csv_delimiter
    = iter_of_list (fieldnames1 :: rows1) →
  csv_reader rt (open_default rt file2) csv_delimiter
    = iter_of_list (fieldnames2 :: rows2) →
  fieldnames1 !! k1 = Some (lit "name") →
  lit "name" ∉ drop (S k1) fieldnames1 →
  fieldnames2 !! k2 = Some (lit "name") →
  lit "name" ∉ drop (S k2) fieldnames2 →
  trimmed_names k1 rows1 = trimmed_names k2 rows2 →
  validate_node_csv_structure rt csv_path csv_delimiter file1
  = validate_node_csv_structure rt csv_path csv_delimiter file2.
Proof.
  intros Hreader1 Hreader2 Hk1 Hlast1 Hk2 Hlast2 Hcells.
  rewrite (validate_node_header _ _ _ _ _ _ Hreader1)
    by (by eapply list_elem_of_lookup_2).
  rewrite (validate_node_header _ _ _ _ _ _ Hreader2)
    by (by eapply list_elem_of_lookup_2).
  rewrite !DictReader_iter_of_list.
  by apply (check_names_trimmed _ _ k1 _ k2).
Qed.

(** X6: after records with non-empty, pairwise distinct trimmed names,
    a record whose [name] is made only of whitespace characters (those
    of [str.isspace], the no-break and ideographic spaces among them)
    gets the empty-value error. *)
Theorem node_whitespace_name_is_empty
    csv_path csv_delimiter file fieldnames before names row name rest :
  csv_reader rt (open_default rt file) csv_delimiter
    = Yield fieldnames (iter_app before (Yield row rest)) →
  lit "name" ∈ fieldnames →
  Forall2 (has_name fieldnames) (records before) names →
  Forall (λ name, strip name ≠ []) names →
  NoDup (strip <$> names) →
  row ≠ [] → has_name fieldnames row name →
  Forall (λ c, isspace c = true) name →
  validate_node_csv_structure rt csv_path csv_delimiter file
  = Raise (CSVStructureError (empty_name_message csv_path)).
Proof.
  intros Hreader Hname Hbefore Hne Hnodup Hrow Hrowname Hspace.
  rewrite (validate_node_header _ _ _ _ _ _ Hreader Hname).
  rewrite DictReader_iter_app.
  rewrite (check_names_clean _ _ _ _ names);
    [|done|done|done|intros; apply not_elem_of_empty].
  simpl. rewrite bool_decide_eq_false_2 by done. simpl.
  unfold has_name in Hrowname. unfold getitem. rewrite Hrowname. simpl.
  rewrite bool_decide_eq_true_2; [done|]. by apply strip_nil.
Qed.

(** X7: two records whose [name] values differ only by whitespace
    around one of them are duplicates: a file in which every record has
    a [name] that is non-empty once trimmed and that has two such
    records gets the duplicate error. *)
Theorem node_padded_name_is_duplicate
    csv_path csv_delimiter file fieldnames rows names i j name ws1 ws2 :
  csv_reader rt (open_default rt file) csv_delimiter
    = iter_of_list (fieldnames :: rows) →
  lit "name" ∈ fieldnames →
  Forall2 (has_name fieldnames) (records rows) names →
  Forall (λ name, strip name ≠ []) names →
  i ≠ j → names !! i = Some name → names !! j = Some (ws1 ++ name ++ ws2) →
  Forall (λ c, isspace c = true) ws1 →
  Forall (λ c, isspace c = true) ws2 →
  validate_node_csv_structure rt csv_path csv_delimiter file
  = Raise (CSVStructureError (duplicate_name_message csv_path)).
Proof.
  intros Hreader Hname Hrows Hne Hij Hi Hj Hws1 Hws2.
  rewrite (validate_node_header _ _ _ _ _ _ Hreader Hname).
  rewrite DictReader_iter_of_list.
  apply (check_names_repetition _ _ _ names); [done..|].
  rewrite NoDup_alt. intros Hinj. apply Hij.
  apply (Hinj i j (strip name)); rewrite list_lookup_fmap.
  - by rewrite Hi.
  - rewrite Hj. simpl. by rewrite strip_padding.
Qed.

(** X8: whether the node validator accepts a file does not depend on
    the order of its rows: two files read to their end with the same
    header and the same rows in another order are both accepted or both
    refused. *)
Theorem node_acceptance_order_free
    csv_path csv_delimiter file1 file2 fieldnames rows1 rows2 :
  csv_reader rt (open_default rt file1) csv_delimiter
    = iter_of_list (fieldnames :: rows1) →
  csv_reader rt (open_default rt file2) csv_delimiter
    = iter_of_list (fieldnames :: rows2) →
  rows1 ≡ₚ rows2 →
  validate_node_csv_structure rt csv_path csv_delimiter file1 = Return tt →
  validate_node_csv_structure rt csv_path csv_delimiter file2 = Return tt.
Proof.
  intros Hreader1 Hreader2 Hperm Hok.
  unfold validate_node_csv_structure in *.
  rewrite Hreader1 in Hok. rewrite Hreader2. simpl in *.
  case_bool_decide as Hname; [done|].
  apply check_names_returns in Hok
    as (rows & names & Hrows%iter_of_list_inj & Hrec & Hne & Hnodup & _).
  subst rows.
  assert (records rows1 ≡ₚ records rows2) as Hperm'
    by (unfold records; by rewrite Hperm).
  destruct (Forall2_Permutation_l _ _ _ _ Hrec Hperm')
    as (names' & Hnames & Hrec').
  rewrite DictReader_iter_of_list, <-iter_app_Stop.
  rewrite (check_names_clean _ _ _ _ names');
    [done|done| | |intros; apply not_elem_of_empty].
  - by rewrite <-Hnames.
  - by rewrite <-Hnames.
Qed.

(** X9: the matrix validator returns normally only when the file was
    read to its end without error, every row has as many cells as there
    are rows, and every cell is exactly ["0"] or ["1"]. *)
Theorem matrix_accepts_only_valid matrix_path csv_delimiter file :
  validate_matrix_csv_structure rt matrix_path csv_delimiter file = Return tt →
  ∃ matrix,
    csv_reader rt (open_utf_8_sig rt file) csv_delimiter = iter_of_list matrix
    ∧ Forall (λ row, length row = length matrix) matrix
    ∧ Forall (Forall binary) matrix.
Proof.
  unfold validate_matrix_csv_structure.
  destruct (list_of_iter (csv_reader rt (open_utf_8_sig rt file) csv_delimiter))
    as [matrix|e] eqn:Hread; simpl; [|done].
  apply list_of_iter_returns in Hread. intros Hok. exists matrix.
  destruct (check_rows_outcomes matrix_path (length matrix) 0 matrix)
    as [[_ Hm]|[[Hsq _]|(? & ? & ? & ? & _ & _ & _ & _ & Hbin)]];
    [|congruence..].
  by apply Forall_and in Hm as [? ?].
Qed.

(** X10: on a file read to its end, the matrix validator returns,
    raises the squareness error (and some row has not as many cells as
    there are rows), or raises the binary error for a cell that is
    neither ["0"] nor ["1"], with the row and column of that cell
    counted from 1, both at most the number of rows.  It raises nothing
    else. *)
Theorem matrix_outcomes matrix_path csv_delimiter file matrix :
  csv_reader rt (open_utf_8_sig rt file) csv_delimiter = iter_of_list matrix →
  validate_matrix_csv_structure rt matrix_path csv_delimiter file = Return tt
  ∨ validate_matrix_csv_structure rt matrix_path csv_delimiter file
    = Raise (CSVStructureError (not_square_message matrix_path))
    ∧ ¬ Forall (λ row, length row = length matrix) matrix
  ∨ ∃ row column cells element,
      1 ≤ row ≤ length matrix ∧ 1 ≤ column ≤ length matrix
      ∧ matrix !! (row - 1) = Some cells
      ∧ cells !! (column - 1) = Some element
      ∧ ¬ binary element
      ∧ validate_matrix_csv_structure rt matrix_path csv_delimiter file
        = Raise (CSVStructureError
                   (not_binary_message matrix_path element row column)).
Proof.
  intros Hreader. rewrite (validate_matrix_rows _ _ _ _ _ Hreader).
  destruct (check_rows_outcomes matrix_path (length matrix) 0 matrix)
    as [[-> _]|[[-> ?]|(i & j & cells & element & Hi & Hlen & Hj & ? & ->)]].
  - by left.
  - right. by left.
  - right. right. exists (i + 1), (j + 1), cells, element.
    apply lookup_lt_Some in Hi as Hi'. apply lookup_lt_Some in Hj as Hj'.
    replace (i + 1 - 1) with i by lia. replace (j + 1 - 1) with j by lia.
    split_and!; try done; lia.
Qed.

(** X11: the matrix validator reads the whole file before it checks
    anything: an exception of the reader, wherever it is met, is the
    exception the validator raises, whatever the rows read before it. *)
Theorem matrix_reader_error_first matrix_path csv_delimiter file rows e :
  csv_reader rt (open_utf_8_sig rt file) csv_delimiter
    = iter_app rows (Throw e) →
  validate_matrix_csv_structure rt matrix_path csv_delimiter file = Raise e.
Proof.
  intros Hreader. unfold validate_matrix_csv_structure.
  by rewrite Hreader, list_of_iter_throw.
Qed.

(** X12: a matrix file with a blank line, which is a row without
    cells, is never accepted: the matrix validator raises a
    [CSVStructureError]. *)
Theorem matrix_blank_row_rejected matrix_path csv_delimiter file matrix :
  csv_reader rt (open_utf_8_sig rt file) csv_delimiter = iter_of_list matrix →
  [] ∈ matrix →
  ∃ message,
    validate_matrix_csv_structure rt matrix_path csv_delimiter file
    = Raise (CSVStructureError message).
Proof.
  intros Hreader Hblank. rewrite (validate_matrix_rows _ _ _ _ _ Hreader).
  destruct (check_rows_outcomes matrix_path (length matrix) 0 matrix)
    as [[_ Hm]|[[-> _]|(? & ? & ? & ? & _ & _ & _ & _ & ->)]]; [|by eexists..].
  eapply Forall_forall in Hm as [Hlen _]; [|exact Hblank].
  destruct matrix; [by apply elem_of_nil in Hblank|done].
Qed.

(** X13: whether the matrix validator accepts a file does not depend
    on the order of its rows nor on the order of the cells within a
    row. *)
Theorem matrix_acceptance_order_free
    matrix_path csv_delimiter file1 file2 matrix1 matrix2 shuffled :
  csv_reader rt (open_utf_8_sig rt file1) csv_delimiter = iter_of_list matrix1 →
  csv_reader rt (open_utf_8_sig rt file2) csv_delimiter = iter_of_list matrix2 →
  matrix1 ≡ₚ shuffled → Forall2 (≡ₚ) shuffled matrix2 →
  validate_matrix_csv_structure rt matrix_path csv_delimiter file1 = Return tt →
  validate_matrix_csv_structure rt matrix_path csv_delimiter file2 = Return tt.
Proof.
  intros Hreader1 Hreader2 Hrows Hcells.
  rewrite (validate_matrix_rows _ _ _ _ _ Hreader1).
  rewrite (validate_matrix_rows _ _ _ _ _ Hreader2). intros Hok.
  destruct (check_rows_outcomes matrix_path (length matrix1) 0 matrix1)
    as [[_ Hm]|[[Hsq _]|(? & ? & ? & ? & _ & _ & _ & _ & Hbin)]];
    [|congruence..].
  rewrite <-(app_nil_r matrix2) at 2. rewrite check_rows_clean; [done|].
  rewrite Hrows in Hm.
  assert (length matrix2 = length matrix1) as ->.
  { by rewrite <-(Forall2_length _ _ _ Hcells), Hrows. }
  by eapply valid_rows_shuffled.
Qed.

End Further.

(** X14: the three messages of the node validator differ from one
    another, whatever the path. *)
Theorem node_messages_differ csv_path :
  missing_name_message csv_path ≠ empty_name_message csv_path
  ∧ missing_name_message csv_path ≠ duplicate_name_message csv_path
  ∧ empty_name_message csv_path ≠ duplicate_name_message csv_path.
Proof.
  unfold missing_name_message, empty_name_message, duplicate_name_message.
  split_and!.
  - intros Heq%(f_equal length). rewrite !length_app in Heq.
    vm_compute (length (lit _)) in Heq. lia.
  - intros Heq%(f_equal length). rewrite !length_app in Heq.
    vm_compute (length (lit _)) in Heq. lia.
  - intros Heq. do 2 apply app_inv_head in Heq. vm_compute in Heq.
    discriminate.
Qed.

(** X15: the squareness message differs from every binary message,
    whatever the path, the cell and its position. *)
Theorem matrix_messages_differ matrix_path element row column :
  not_square_message matrix_path
  ≠ not_binary_message matrix_path element row column.
Proof.
  unfold not_square_message, not_binary_message. intros Heq.
  do 2 apply app_inv_head in Heq.
  vm_compute (lit _) in Heq. discriminate.
Qed.

(** ** The further properties on concrete files *)

Lemma node_accepts_only_valid_witness :
  ∃ fieldnames rows names,
    csv_reader plain (open_default plain nodes_ok) (lit ";")
      = iter_of_list (fieldnames :: rows)
    ∧ lit "name" ∈ fieldnames
    ∧ Forall2 (has_name fieldnames) (records rows) names
    ∧ Forall (λ name, strip name ≠ []) names
    ∧ NoDup (strip <$> names).
Proof.
  apply (node_accepts_only_valid plain (lit "nodes.csv") (lit ";") nodes_ok).
  vm_compute. reflexivity.
Defined.

Lemma node_outcomes_witness :
  validate_node_csv_structure plain (lit "nodes.csv") (lit ";") nodes_short_row
    = Return tt
  ∨ validate_node_csv_structure plain (lit "nodes.csv") (lit ";") nodes_short_row
    = Raise (CSVStructureError (empty_name_message (lit "nodes.csv")))
  ∨ validate_node_csv_structure plain (lit "nodes.csv") (lit ";") nodes_short_row
    = Raise (CSVStructureError (duplicate_name_message (lit "nodes.csv")))
  ∨ validate_node_csv_structure plain (lit "nodes.csv") (lit ";") nodes_short_row
    = Raise AttributeError.
Proof.
  apply (node_outcomes plain (lit "nodes.csv") (lit ";") nodes_short_row
           [lit "type"; lit "name"] [[lit "x"; lit "A"]; [lit "y"]]).
  - vm_compute. reflexivity.
  - decide_it.
Defined.

Lemma node_short_row_attribute_error_witness :
  validate_node_csv_structure plain (lit "nodes.csv") (lit ";") nodes_short_row
  = Raise AttributeError.
Proof.
  apply (node_short_row_attribute_error plain
           (lit "nodes.csv") (lit ";") nodes_short_row
           [lit "type"; lit "name"] 1
           [[lit "x"; lit "A"]] [lit "A"] [lit "y"] Stop).
  - vm_compute. reflexivity.
  - reflexivity.
  - decide_it.
  - repeat constructor; vm_compute; reflexivity.
  - decide_it.
  - decide_it.
  - discriminate.
  - simpl. lia.
Defined.

Lemma node_reader_error_propagates_witness :
  validate_node_csv_structure plain_lazy (lit "nodes.csv") (lit ";")
    nodes_ill_formed_line
  = Raise UnicodeDecodeError.
Proof.
  apply (node_reader_error_propagates plain_lazy
           (lit "nodes.csv") (lit ";") nodes_ill_formed_line
           [lit "name"] [[lit "A"]] [lit "A"] UnicodeDecodeError).
  - vm_compute. reflexivity.
  - decide_it.
  - repeat constructor; vm_compute; reflexivity.
  - decide_it.
  - decide_it.
Defined.

Lemma node_only_trimmed_names_matter_witness :
  validate_node_csv_structure plain (lit "nodes.csv") (lit ";") nodes_ok
  = validate_node_csv_structure plain (lit "nodes.csv") (lit ";")
      nodes_other_columns.
Proof.
  apply (node_only_trimmed_names_matter plain
           (lit "nodes.csv") (lit ";") nodes_ok nodes_other_columns
           [lit "name"; lit "type"] 0
           [[lit "A"; lit "x"]; []; [lit " B "; lit "y"]]
           [lit "kind"; lit "name"; lit "extra"] 1
           [[lit "p"; lit " A"; lit "q"; lit "r"]; []; [lit "z"; lit "B"]]).
  - vm_compute. reflexivity.
  - vm_compute. reflexivity.
  - reflexivity.
  - decide_it.
  - reflexivity.
  - decide_it.
  - vm_compute. reflexivity.
Defined.

Lemma node_whitespace_name_is_empty_witness :
  validate_node_csv_structure plain (lit "nodes.csv") (lit ";")
    nodes_unicode_blank
  = Raise (CSVStructureError (empty_name_message (lit "nodes.csv"))).
Proof.
  apply (node_whitespace_name_is_empty plain
           (lit "nodes.csv") (lit ";") nodes_unicode_blank
           [lit "name"] [[lit "A"]] [lit "A"]
           [[0xA0; 0x3000]%N] [0xA0; 0x3000]%N Stop).
  - vm_compute. reflexivity.
  - decide_it.
  - repeat constructor; vm_compute; reflexivity.
  - decide_it.
  - decide_it.
  - discriminate.
  - vm_compute. reflexivity.
  - decide_it.
Defined.

Lemma node_padded_name_is_duplicate_witness :
  validate_node_csv_structure plain (lit "nodes.csv") (lit ";") nodes_duplicate
  = Raise (CSVStructureError (duplicate_name_message (lit "nodes.csv"))).
Proof.
  apply (node_padded_name_is_duplicate plain
           (lit "nodes.csv") (lit ";") nodes_duplicate
           [lit "name"] [[lit "A"]; [lit "B"]; [lit " A" ++ [0xA0%N]]]
           [lit "A"; lit "B"; lit " A" ++ [0xA0%N]]
           0 2 (lit "A") (lit " ") [0xA0%N]).
  - vm_compute. reflexivity.
  - decide_it.
  - repeat constructor; vm_compute; reflexivity.
  - decide_it.
  - discriminate.
  - reflexivity.
  - reflexivity.
  - decide_it.
  - decide_it.
Defined.

Lemma node_acceptance_order_free_witness :
  validate_node_csv_structure plain (lit "nodes.csv") (lit ";") nodes_B_then_A
  = Return tt.
Proof.
  apply (node_acceptance_order_free plain
           (lit "nodes.csv") (lit ";") nodes_two nodes_B_then_A
           [lit "name"; lit "type"]
           [[lit "A"; lit "x"]; [lit "B"; lit "y"]]
           [[lit "B"; lit "y"]; [lit "A"; lit "x"]]).
  - vm_compute. reflexivity.
  - vm_compute. reflexivity.
  - apply perm_swap.
  - vm_compute. reflexivity.
Defined.

Lemma matrix_accepts_only_valid_witness :
  ∃ matrix,
    csv_reader plain (open_utf_8_sig plain matrix_ok) (lit ";")
      = iter_of_list matrix
    ∧ Forall (λ row, length row = length matrix) matrix
    ∧ Forall (Forall binary) matrix.
Proof.
  apply (matrix_accepts_only_valid plain (lit "dsm.csv") (lit ";") matrix_ok).
  vm_compute. reflexivity.
Defined.

Lemma matrix_outcomes_witness :
  validate_matrix_csv_structure plain (lit "dsm.csv") (lit ";") matrix_with_2
    = Return tt
  ∨ validate_matrix_csv_structure plain (lit "dsm.csv") (lit ";") matrix_with_2
    = Raise (CSVStructureError (not_square_message (lit "dsm.csv")))
    ∧ ¬ Forall (λ row, length row = 2) [[lit "0"; lit "1"]; [lit "1"; lit "2"]]
  ∨ ∃ row column cells element,
      1 ≤ row ≤ 2 ∧ 1 ≤ column ≤ 2
      ∧ [[lit "0"; lit "1"]; [lit "1"; lit "2"]] !! (row - 1) = Some cells
      ∧ cells !! (column - 1) = Some element
      ∧ ¬ binary element
      ∧ validate_matrix_csv_structure plain (lit "dsm.csv") (lit ";")
          matrix_with_2
        = Raise (CSVStructureError
                   (not_binary_message (lit "dsm.csv") element row column)).
Proof.
  apply (matrix_outcomes plain (lit "dsm.csv") (lit ";") matrix_with_2
           [[lit "0"; lit "1"]; [lit "1"; lit "2"]]).
  vm_compute. reflexivity.
Defined.

Lemma matrix_reader_error_first_witness :
  validate_matrix_csv_structure plain_lazy (lit "dsm.csv") (lit ";")
    matrix_ill_formed_line
  = Raise UnicodeDecodeError.
Proof.
  apply (matrix_reader_error_first plain_lazy
           (lit "dsm.csv") (lit ";") matrix_ill_formed_line
           [[lit "0"; lit "2"; lit "1"]] UnicodeDecodeError).
  vm_compute. reflexivity.
Defined.

Lemma matrix_blank_row_rejected_witness :
  ∃ message,
    validate_matrix_csv_structure plain (lit "dsm.csv") (lit ";")
      matrix_blank_line
    = Raise (CSVStructureError message).
Proof.
  apply (matrix_blank_row_rejected plain
           (lit "dsm.csv") (lit ";") matrix_blank_line
           [[lit "0"; lit "1"]; [lit "1"; lit "0"]; []]).
  - vm_compute. reflexivity.
  - decide_it.
Defined.

Lemma matrix_acceptance_order_free_witness :
  validate_matrix_csv_structure plain (lit "dsm.csv") (lit ";") matrix_b
  = Return tt.
Proof.
  apply (matrix_acceptance_order_free plain
           (lit "dsm.csv") (lit ";") matrix_a matrix_b
           [[lit "0"; lit "1"]; [lit "1"; lit "1"]]
           [[lit "1"; lit "1"]; [lit "1"; lit "0"]]
           [[lit "1"; lit "1"]; [lit "0"; lit "1"]]).
  - vm_compute. reflexivity.
  - vm_compute. reflexivity.
  - apply perm_swap.
  - repeat constructor.
  - vm_compute. reflexivity.
Defined.
